(** * The user-session reducer and context accessor of [App.js]

    A shallow embedding of the logic of [src/App.js]: the module constant
    [initialUserState], the reducer [userReducer], the accessor hook
    [useUserContext], the provider component [UserProvider], the consumers
    [ManageUser] and [IsUserLoggedIn] and the two event handlers of
    [ManageUser].

    JavaScript objects live in a heap and are handled through references, so
    that "a new object is returned" and "the same object is returned" are
    different statements, as they are for the [===] of the host language.
    A [throw] is an explicit [Throw] result. *)

From stdpp Require Import base option list gmap strings.

Open Scope string_scope.

(** ** Values, objects and the heap *)

Module JS.

(** A reference to an object of the heap. *)
Definition loc := nat.

(** The values the program handles.  [VNum] carries the integral numbers
    only and [VFun] an opaque function identity: the code under study
    stores such values and never computes with them. *)
Inductive value : Type :=
| VUndefined
| VNull
| VBool (b : bool)
| VNum (n : Z)
| VStr (s : string)
| VFun (f : string)
| VRef (l : loc).

#[export] Instance value_eq_dec : EqDecision value.
Proof. solve_decision. Defined.

(** The own data properties of a plain object. *)
Abbreviation props := (gmap string value).

(** Objects are allocated at the end of the heap and never freed. *)
Abbreviation heap := (list props).

Inductive exn : Type :=
| TypeError (msg : string)
| Error (msg : string).

Inductive result (A : Type) : Type :=
| Ok (a : A)
| Throw (e : exn).
Arguments Ok {A} a.
Arguments Throw {A} e.

(** Sequencing: a [throw] skips the rest. *)
#[export] Instance result_ret : MRet result := λ A a, Ok a.
#[export] Instance result_bind : MBind result := λ A B k r,
  match r with
  | Ok a => k a
  | Throw e => Throw e
  end.

(** [{ k1: v1, ... }]: a new object. *)
Definition alloc (h : heap) (p : props) : heap * loc :=
  ((h ++ [p])%list, length h).

(** The properties of the object at [l]. *)
Definition props_of (h : heap) (l : loc) : props :=
  default ∅ (h !! l).

(** [o.k] on an object reference: a missing property reads [undefined]. *)
Definition field (h : heap) (l : loc) (k : string) : value :=
  default VUndefined (props_of h l !! k).

(** [v == null] *)
Definition is_nullish (v : value) : bool :=
  match v with
  | VUndefined | VNull => true
  | _ => false
  end.

(** [v.k] for the property names the program reads ([type], [payload],
    [isLoggedIn], [userState], [setUserState]): a [TypeError] on [null] and
    [undefined], the own property on an object, and [undefined] on the
    other primitives, whose wrappers have no property of these names. *)
Definition get_prop (h : heap) (v : value) (k : string) : result value :=
  match v with
  | VUndefined => Throw (TypeError ("Cannot read properties of undefined (reading '" ++ k ++ "')"))
  | VNull => Throw (TypeError ("Cannot read properties of null (reading '" ++ k ++ "')"))
  | VRef l => Ok (field h l k)
  | VBool _ | VNum _ | VStr _ | VFun _ => Ok VUndefined
  end.

(** [v === s] for a string literal [s], the comparison of a [case] label. *)
Definition strict_eq_str (v : value) (s : string) : bool :=
  match v with
  | VStr t => bool_decide (t = s)
  | _ => false
  end.

(** [!v] goes through ToBoolean. *)
Definition to_boolean (v : value) : bool :=
  match v with
  | VUndefined | VNull => false
  | VBool b => b
  | VNum n => negb (n =? 0)%Z
  | VStr s => negb (bool_decide (s = ""))
  | VFun _ | VRef _ => true
  end.

End JS.

Export JS.

(** ** The module [App.js] *)

(** [const initialUserState = { isLoggedIn: false, username: '', email: '' }] *)
Definition initialUserState : props :=
  {[ "isLoggedIn" := VBool false; "username" := VStr ""; "email" := VStr "" ]}.

(** [function userReducer(state, action)].  The state is an object; the
    action is whatever value was dispatched.  [{ ...state, k: v }] allocates
    a new object with the properties of [state] and [k] set to [v]; the
    [default] arm returns the reference it was given. *)
Definition userReducer (h : heap) (state : loc) (action : value)
  : result (heap * loc) :=
  type ← get_prop h action "type";
  if strict_eq_str type "SET_LOGGEDIN" then
    payload ← get_prop h action "payload";
    Ok (alloc h (<["isLoggedIn" := payload]> (props_of h state)))
  else if strict_eq_str type "SET_USERNAME" then
    payload ← get_prop h action "payload";
    Ok (alloc h (<["username" := payload]> (props_of h state)))
  else if strict_eq_str type "SET_EMAIL" then
    payload ← get_prop h action "payload";
    Ok (alloc h (<["email" := payload]> (props_of h state)))
  else
    Ok (h, state).

(** ** The part of React the module relies on *)

Module React.

(** The values of the [UserContext.Provider] elements that enclose the
    component being rendered, the nearest first. *)
Abbreviation providers := (list value).

(** [createContext()] is called without a default value. *)
Definition createContext : value := VUndefined.

(** [useContext(UserContext)]: the value of the nearest enclosing provider,
    and the default value of the context when there is none. *)
Definition useContext (env : providers) : value :=
  match env with
  | v :: _ => v
  | [] => createContext
  end.

End React.

(** [export const useUserContext = () => ...] *)
Definition useUserContext (env : React.providers) : result value :=
  let context := React.useContext env in
  if is_nullish context then
    Throw (Error "userContext needs to be within a Provider")
  else
    Ok context.

(** What [useReducer(userReducer, initialUserState)] keeps for
    [UserProvider]: the heap and the reference to the current state.
    Updates are applied one after the other, each before the next render. *)
Record store : Type := Store {
  st_heap : heap;
  userState : loc
}.

(** Evaluating the module allocates [initialUserState]; the first render of
    [UserProvider] takes it as the state of the reducer hook. *)
Definition mount : store :=
  let '(h, l) := alloc [] initialUserState in
  Store h l.

(** The dispatch function [setUserState] of the hook. *)
Definition setUserState (st : store) (action : value) : result store :=
  '(h, s) ← userReducer (st_heap st) (userState st) action;
  Ok (Store h s).

(** The dispatch function as a value: an opaque function identity. *)
Definition dispatch_fn : value := VFun "setUserState".

(** [UserProvider]: [const providerValue = { userState, setUserState }],
    handed to the children through [UserContext.Provider]. *)
Definition UserProvider (st : store) (env : React.providers)
  : store * React.providers :=
  let '(h, providerValue) :=
    alloc (st_heap st)
      {[ "userState" := VRef (userState st); "setUserState" := dispatch_fn ]} in
  (Store h (userState st), VRef providerValue :: env).

(** [const { userState, setUserState } = useUserContext();] as written in
    [ManageUser]. *)
Definition ManageUser_bindings (h : heap) (env : React.providers)
  : result (value * value) :=
  context ← useUserContext env;
  us ← get_prop h context "userState";
  set ← get_prop h context "setUserState";
  Ok (us, set).

(** [setUserState({ type: ty, payload: v })]: the object literal is
    allocated, then dispatched. *)
Definition send (st : store) (ty : string) (v : value) : result store :=
  let '(h, a) := alloc (st_heap st) {[ "type" := VStr ty; "payload" := v ]} in
  setUserState (Store h (userState st)) (VRef a).

(** [handleInputChange]: [e.target.name] and [e.target.value] are the name
    and the text of an [input] element, both strings. *)
Definition handleInputChange (st : store) (name text : string) : result store :=
  send st ("SET_" ++ name) (VStr text).

(** [handleLoggedIn] *)
Definition handleLoggedIn (st : store) : result store :=
  isLoggedIn ← get_prop (st_heap st) (VRef (userState st)) "isLoggedIn";
  send st "SET_LOGGEDIN" (VBool (negb (to_boolean isLoggedIn))).

(** ** Vocabulary of the statements *)

(** The action [a] reads as the request of kind [ty] carrying [v]. *)
Definition is_request (h : heap) (a : value) (ty : string) (v : value) : Prop :=
  get_prop h a "type" = Ok (VStr ty) ∧ get_prop h a "payload" = Ok v.

(** The three [case] labels of [userReducer] and the property each sets. *)
Inductive set_kind : string → string → Prop :=
| set_loggedin : set_kind "SET_LOGGEDIN" "isLoggedIn"
| set_username : set_kind "SET_USERNAME" "username"
| set_email : set_kind "SET_EMAIL" "email".

Definition is_bool (v : value) : bool :=
  match v with VBool _ => true | _ => false end.

Definition is_string (v : value) : bool :=
  match v with VStr _ => true | _ => false end.

(** The type the data model gives to the field [k]: [isLoggedIn] is a
    boolean, [username] and [email] are strings. *)
Definition has_field_type (k : string) (v : value) : bool :=
  if bool_decide (k = "isLoggedIn") then is_bool v else is_string v.

(** The record at [l] has a boolean [isLoggedIn] and string [username] and
    [email]. *)
Definition well_typed (h : heap) (l : loc) : bool :=
  has_field_type "isLoggedIn" (field h l "isLoggedIn")
  && has_field_type "username" (field h l "username")
  && has_field_type "email" (field h l "email").

(** The record the store currently holds. *)
Definition state_of (st : store) : props :=
  props_of (st_heap st) (userState st).

(** The record [{ isLoggedIn: b, username: u, email: e }]. *)
Definition record (b : bool) (u e : string) : props :=
  {[ "isLoggedIn" := VBool b; "username" := VStr u; "email" := VStr e ]}.

(** A heap with the initial record at [0] and one action object at [1]. *)
Definition demo_heap (ty : value) (v : value) : heap :=
  [initialUserState; {[ "type" := ty; "payload" := v ]}].

(** ** The consumer components and the events of the page *)

(** [handleLoggedIn] as the closure one render of [ManageUser] creates:
    [captured] is the [userState] that render destructured from the
    context, and the payload is computed from it. *)
Definition handleLoggedIn_closure (captured : value) (st : store)
  : result store :=
  isLoggedIn ← get_prop (st_heap st) captured "isLoggedIn";
  send st "SET_LOGGEDIN" (VBool (negb (to_boolean isLoggedIn))).

(** [IsUserLoggedIn]: [null] when [!userState.isLoggedIn], and otherwise
    the [span], given by its text. *)
Definition IsUserLoggedIn (h : heap) (env : React.providers)
  : result (option string) :=
  context ← useUserContext env;
  us ← get_prop h context "userState";
  isLoggedIn ← get_prop h us "isLoggedIn";
  if negb (to_boolean isLoggedIn) then Ok None else Ok (Some "WELCOME!!").

(** What [ManageUser] puts in its three controls: the [value] of the two
    inputs and the text of the button. *)
Record controls : Type := Controls {
  username_input : value;
  email_input : value;
  button_text : string
}.

(** [ManageUser], with [value={userState.username}] and
    [value={userState.email}] on the inputs and
    [userState.isLoggedIn ? 'Log Out' : 'Log In'] in the button. *)
Definition ManageUser (h : heap) (env : React.providers) : result controls :=
  '(us, _) ← ManageUser_bindings h env;
  username ← get_prop h us "username";
  email ← get_prop h us "email";
  isLoggedIn ← get_prop h us "isLoggedIn";
  Ok (Controls username email
        (if to_boolean isLoggedIn then "Log Out" else "Log In")).

(** The events the controls of [ManageUser] raise: a change of the input
    named [USERNAME], a change of the input named [EMAIL], a click on the
    button. *)
Inductive ui_event : Type :=
| ChangeUsername (text : string)
| ChangeEmail (text : string)
| ClickButton.

(** The handler each control is wired to. *)
Definition fire (st : store) (ev : ui_event) : result store :=
  match ev with
  | ChangeUsername text => handleInputChange st "USERNAME" text
  | ChangeEmail text => handleInputChange st "EMAIL" text
  | ClickButton => handleLoggedIn st
  end.

(** A run of events, each handled on the store the previous one left. *)
Fixpoint fire_all (st : store) (evs : list ui_event) : result store :=
  match evs with
  | [] => Ok st
  | ev :: evs => st' ← fire st ev; fire_all st' evs
  end.

(** The state of the store is an allocated object. *)
Definition store_ok (st : store) : Prop :=
  (userState st < length (st_heap st))%nat.






(** What the controls and the banner show of the record at [l]. *)
Definition controls_of (h : heap) (l : loc) : controls :=
  Controls (field h l "username") (field h l "email")
    (if to_boolean (field h l "isLoggedIn") then "Log Out" else "Log In").

Definition banner_of (h : heap) (l : loc) : option string :=
  if to_boolean (field h l "isLoggedIn") then Some "WELCOME!!" else None.

(** ** Heap and property lemmas *)

Section heap_facts.
Implicit Types (h : heap) (p : props) (l : loc) (k : string) (v : value).

Lemma props_of_app_new h p : props_of (h ++ [p])%list (length h) = p.
Proof.
  unfold props_of.
  by rewrite lookup_app_r, Nat.sub_diag by lia.
Qed.

Lemma props_of_alloc_new h p : props_of (alloc h p).1 (alloc h p).2 = p.
Proof. apply props_of_app_new. Qed.

Lemma lookup_alloc_old h p l q :
  h !! l = Some q → (alloc h p).1 !! l = Some q.
Proof. intros Hl; simpl. by apply lookup_app_l_Some. Qed.

Lemma props_of_alloc_old h p l :
  (l < length h)%nat → props_of (alloc h p).1 l = props_of h l.
Proof. intros Hl; unfold props_of; simpl. by rewrite lookup_app_l. Qed.

Lemma field_alloc_new h p k :
  field (alloc h p).1 (alloc h p).2 k = default VUndefined (p !! k).
Proof. unfold field. by rewrite props_of_alloc_new. Qed.

Lemma field_dangling h l k : (length h ≤ l)%nat → field h l k = VUndefined.
Proof.
  intros Hl; unfold field, props_of.
  by rewrite lookup_ge_None_2.
Qed.

(** A property that reads as something else than [undefined] belongs to an
    allocated object. *)
Lemma field_defined_live h l k :
  field h l k ≠ VUndefined → (l < length h)%nat.
Proof.
  intros Hf. destruct (decide (l < length h)%nat) as [|Hge]; [done|].
  exfalso; apply Hf, field_dangling; lia.
Qed.

Lemma get_prop_ok_not_nullish h a k v :
  get_prop h a k = Ok v → is_nullish a = false.
Proof. by destruct a. Qed.

Lemma get_prop_not_nullish h a k :
  is_nullish a = false → ∃ v, get_prop h a k = Ok v.
Proof. destruct a; simpl; intros; try done; eauto. Qed.

Lemma strict_eq_str_true v s : strict_eq_str v s = true ↔ v = VStr s.
Proof.
  destruct v; simpl; try (split; [done|congruence]).
  rewrite bool_decide_eq_true. split; congruence.
Qed.

Lemma strict_eq_str_false v s : strict_eq_str v s = false ↔ v ≠ VStr s.
Proof.
  rewrite <- strict_eq_str_true. by destruct (strict_eq_str v s).
Qed.

(** Allocation leaves a request readable as it was. *)
Lemma is_request_alloc h p a ty v :
  is_request h a ty v → is_request (alloc h p).1 a ty v.
Proof.
  intros [Hty Hv]. destruct a as [| | | | | |l]; try done.
  simpl in Hty, Hv.
  assert (l < length h)%nat as Hl.
  { apply (field_defined_live h l "type"). injection Hty as ->. done. }
  unfold is_request, get_prop, field.
  by rewrite (props_of_alloc_old h p l Hl).
Qed.

End heap_facts.

(** ** The arms of [userReducer] *)

Section reducer_arms.
Implicit Types (h : heap) (s : loc) (a v : value) (ty k : string).

(** A [SET_...] request returns a new object: the properties of the state
    with the one property replaced. *)
Lemma userReducer_set h s a ty k v :
  set_kind ty k → is_request h a ty v →
  userReducer h s a = Ok (alloc h (<[k := v]> (props_of h s))).
Proof.
  intros Hk [Hty Hv]. unfold userReducer.
  rewrite Hty; simpl.
  destruct Hk; simpl; rewrite Hv; done.
Qed.

(** Any other [type] falls to the [default] arm. *)
Lemma userReducer_default h s a (ty : value) :
  get_prop h a "type" = Ok ty →
  ty ≠ VStr "SET_LOGGEDIN" → ty ≠ VStr "SET_USERNAME" → ty ≠ VStr "SET_EMAIL" →
  userReducer h s a = Ok (h, s).
Proof.
  intros Hty H1 H2 H3. unfold userReducer. rewrite Hty; simpl.
  apply strict_eq_str_false in H1, H2, H3.
  by rewrite H1, H2, H3.
Qed.


(** The reducer returns on every action on which [action.type] can be
    read, and then it returns either its state and heap as they are or a
    newly allocated object. *)
Lemma userReducer_cases h s a :
  is_nullish a = false →
  userReducer h s a = Ok (h, s)
  ∨ ∃ ty k v, set_kind ty k ∧ is_request h a ty v
      ∧ userReducer h s a = Ok (alloc h (<[k := v]> (props_of h s))).
Proof.
  intros Ha.
  destruct (get_prop_not_nullish h a "type" Ha) as [ty Hty].
  destruct (get_prop_not_nullish h a "payload" Ha) as [v Hv].
  destruct (decide (ty = VStr "SET_LOGGEDIN")) as [->|H1].
  { right. exists "SET_LOGGEDIN", "isLoggedIn", v.
    split; [constructor|]. split; [done|]. eapply userReducer_set; [constructor|done]. }
  destruct (decide (ty = VStr "SET_USERNAME")) as [->|H2].
  { right. exists "SET_USERNAME", "username", v.
    split; [constructor|]. split; [done|]. eapply userReducer_set; [constructor|done]. }
  destruct (decide (ty = VStr "SET_EMAIL")) as [->|H3].
  { right. exists "SET_EMAIL", "email", v.
    split; [constructor|]. split; [done|]. eapply userReducer_set; [constructor|done]. }
  left. by eapply userReducer_default.
Qed.

End reducer_arms.

(** ** The [SET_...] requests *)

Section set_requests.
Implicit Types (h : heap) (s : loc) (a v : value) (ty k : string).

(** Copy with update: the returned object has [k] set to the payload and
    reads as the state on every other property. *)
Lemma userReducer_set_fields h s a ty k v :
  set_kind ty k → is_request h a ty v →
  ∃ h' s', userReducer h s a = Ok (h', s')
    ∧ props_of h' s' = <[k := v]> (props_of h s)
    ∧ field h' s' k = v
    ∧ ∀ k', k' ≠ k → field h' s' k' = field h s k'.
Proof.
  intros Hk Hreq.
  exists (alloc h (<[k := v]> (props_of h s))).1,
         (alloc h (<[k := v]> (props_of h s))).2.
  split; [by rewrite (userReducer_set h s a ty k v Hk Hreq)|].
  split; [apply props_of_alloc_new|].
  split.
  - rewrite field_alloc_new. by rewrite lookup_insert_eq.
  - intros k' Hne. rewrite field_alloc_new.
    by rewrite lookup_insert_ne.
Qed.

End set_requests.

(** C1. For every state [s] and every payload [v], the reducer applied to a
    [SET_LOGGEDIN] request carrying [v] returns a record whose [isLoggedIn]
    is [v] and whose [username] and [email] are those of [s]; the record is
    the copy of [s] with [isLoggedIn] replaced. *)
Theorem set_loggedin_spec (h : heap) (s : loc) (a v : value) :
  is_request h a "SET_LOGGEDIN" v →
  ∃ h' s', userReducer h s a = Ok (h', s')
    ∧ field h' s' "isLoggedIn" = v
    ∧ field h' s' "username" = field h s "username"
    ∧ field h' s' "email" = field h s "email"
    ∧ props_of h' s' = <["isLoggedIn" := v]> (props_of h s).
Proof.
  intros Hreq.
  destruct (userReducer_set_fields h s a _ _ v set_loggedin Hreq)
    as (h' & s' & Hrun & Hprops & Hk & Hother).
  exists h', s'. repeat split; try done; by apply Hother.
Qed.

Lemma set_loggedin_spec_witness :
  is_request (demo_heap (VStr "SET_LOGGEDIN") (VBool true)) (VRef 1)
    "SET_LOGGEDIN" (VBool true)
  ∧ ∃ h' s',
      userReducer (demo_heap (VStr "SET_LOGGEDIN") (VBool true)) 0 (VRef 1)
        = Ok (h', s')
      ∧ field h' s' "isLoggedIn" = VBool true
      ∧ field h' s' "username"
        = field (demo_heap (VStr "SET_LOGGEDIN") (VBool true)) 0 "username"
      ∧ field h' s' "email"
        = field (demo_heap (VStr "SET_LOGGEDIN") (VBool true)) 0 "email"
      ∧ props_of h' s'
        = <["isLoggedIn" := VBool true]>
            (props_of (demo_heap (VStr "SET_LOGGEDIN") (VBool true)) 0).
Proof.
  split; [split; reflexivity|].
  apply (set_loggedin_spec _ 0 (VRef 1) (VBool true)).
  split; reflexivity.
Defined.

(** C2. For every state [s] and every string [v], the reducer applied to a
    [SET_USERNAME] request carrying [v] returns a record whose [username] is
    [v] and whose [isLoggedIn] and [email] are those of [s]. *)
Theorem set_username_spec (h : heap) (s : loc) (a : value) (v : string) :
  is_request h a "SET_USERNAME" (VStr v) →
  ∃ h' s', userReducer h s a = Ok (h', s')
    ∧ field h' s' "username" = VStr v
    ∧ field h' s' "isLoggedIn" = field h s "isLoggedIn"
    ∧ field h' s' "email" = field h s "email"
    ∧ props_of h' s' = <["username" := VStr v]> (props_of h s).
Proof.
  intros Hreq.
  destruct (userReducer_set_fields h s a _ _ (VStr v) set_username Hreq)
    as (h' & s' & Hrun & Hprops & Hk & Hother).
  exists h', s'. repeat split; try done; by apply Hother.
Qed.

Lemma set_username_spec_witness :
  is_request (demo_heap (VStr "SET_USERNAME") (VStr "alice")) (VRef 1)
    "SET_USERNAME" (VStr "alice")
  ∧ ∃ h' s',
      userReducer (demo_heap (VStr "SET_USERNAME") (VStr "alice")) 0 (VRef 1)
        = Ok (h', s')
      ∧ field h' s' "username" = VStr "alice"
      ∧ field h' s' "isLoggedIn"
        = field (demo_heap (VStr "SET_USERNAME") (VStr "alice")) 0 "isLoggedIn"
      ∧ field h' s' "email"
        = field (demo_heap (VStr "SET_USERNAME") (VStr "alice")) 0 "email"
      ∧ props_of h' s'
        = <["username" := VStr "alice"]>
            (props_of (demo_heap (VStr "SET_USERNAME") (VStr "alice")) 0).
Proof.
  split; [split; reflexivity|].
  apply (set_username_spec _ 0 (VRef 1) "alice").
  split; reflexivity.
Defined.

(** C3. For every state [s] and every string [v], the reducer applied to a
    [SET_EMAIL] request carrying [v] returns a record whose [email] is [v]
    and whose [isLoggedIn] and [username] are those of [s]. *)
Theorem set_email_spec (h : heap) (s : loc) (a : value) (v : string) :
  is_request h a "SET_EMAIL" (VStr v) →
  ∃ h' s', userReducer h s a = Ok (h', s')
    ∧ field h' s' "email" = VStr v
    ∧ field h' s' "isLoggedIn" = field h s "isLoggedIn"
    ∧ field h' s' "username" = field h s "username"
    ∧ props_of h' s' = <["email" := VStr v]> (props_of h s).
Proof.
  intros Hreq.
  destruct (userReducer_set_fields h s a _ _ (VStr v) set_email Hreq)
    as (h' & s' & Hrun & Hprops & Hk & Hother).
  exists h', s'. repeat split; try done; by apply Hother.
Qed.

Lemma set_email_spec_witness :
  is_request (demo_heap (VStr "SET_EMAIL") (VStr "a@x.com")) (VRef 1)
    "SET_EMAIL" (VStr "a@x.com")
  ∧ ∃ h' s',
      userReducer (demo_heap (VStr "SET_EMAIL") (VStr "a@x.com")) 0 (VRef 1)
        = Ok (h', s')
      ∧ field h' s' "email" = VStr "a@x.com"
      ∧ field h' s' "isLoggedIn"
        = field (demo_heap (VStr "SET_EMAIL") (VStr "a@x.com")) 0 "isLoggedIn"
      ∧ field h' s' "username"
        = field (demo_heap (VStr "SET_EMAIL") (VStr "a@x.com")) 0 "username"
      ∧ props_of h' s'
        = <["email" := VStr "a@x.com"]>
            (props_of (demo_heap (VStr "SET_EMAIL") (VStr "a@x.com")) 0).
Proof.
  split; [split; reflexivity|].
  apply (set_email_spec _ 0 (VRef 1) "a@x.com").
  split; reflexivity.
Defined.

(** ** The [default] arm, totality and purity *)

(** C4. For every state [s] and every request whose [type] is none of
    [SET_LOGGEDIN], [SET_USERNAME], [SET_EMAIL], the reducer returns [s]
    itself, the very reference it was given, in an unchanged heap, and
    throws nothing. *)
Theorem unknown_request_identity (h : heap) (s : loc) (a ty : value) :
  get_prop h a "type" = Ok ty →
  ty ≠ VStr "SET_LOGGEDIN" → ty ≠ VStr "SET_USERNAME" → ty ≠ VStr "SET_EMAIL" →
  userReducer h s a = Ok (h, s).
Proof. apply userReducer_default. Qed.

Lemma unknown_request_identity_witness :
  get_prop (demo_heap (VStr "RESET") (VBool true)) (VRef 1) "type"
    = Ok (VStr "RESET")
  ∧ userReducer (demo_heap (VStr "RESET") (VBool true)) 0 (VRef 1)
    = Ok (demo_heap (VStr "RESET") (VBool true), 0).
Proof.
  split; [reflexivity|].
  apply (unknown_request_identity _ 0 (VRef 1) (VStr "RESET"));
    [reflexivity | discriminate | discriminate | discriminate].
Defined.

(** C5. The reducer is total and pure on requests: for every state and
    every action that is a value with properties (neither [null] nor
    [undefined]), whatever its [type], it returns a state and throws
    nothing; every object of the heap is left as it was; the returned
    reference is an object when the state was one and has every property
    the state had. *)
Theorem userReducer_total_pure (h : heap) (s : loc) (a : value) :
  is_nullish a = false →
  ∃ h' s', userReducer h s a = Ok (h', s')
    ∧ (∀ l p, h !! l = Some p → h' !! l = Some p)
    ∧ (is_Some (h !! s) → is_Some (h' !! s'))
    ∧ (∀ k, is_Some (props_of h s !! k) → is_Some (props_of h' s' !! k)).
Proof.
  intros Ha.
  destruct (userReducer_cases h s a Ha) as [Hid|(ty & k & v & Hk & Hreq & Hset)].
  - exists h, s. by repeat split.
  - set (new := alloc h (<[k := v]> (props_of h s))).
    exists new.1, new.2. split; [exact Hset|].
    split; [intros l p; apply lookup_alloc_old|].
    split.
    + intros _. simpl. rewrite lookup_app_r, Nat.sub_diag by lia. by eexists.
    + intros k' Hk'. subst new. rewrite props_of_alloc_new.
      destruct (decide (k = k')) as [->|Hne].
      * rewrite lookup_insert_eq. by eexists.
      * by rewrite lookup_insert_ne.
Qed.

Lemma userReducer_total_pure_witness :
  is_nullish (VRef 1) = false
  ∧ ∃ h' s',
      userReducer (demo_heap (VNum 7) VNull) 0 (VRef 1) = Ok (h', s')
      ∧ (∀ l p, demo_heap (VNum 7) VNull !! l = Some p → h' !! l = Some p)
      ∧ (is_Some (demo_heap (VNum 7) VNull !! 0) → is_Some (h' !! s'))
      ∧ (∀ k, is_Some (props_of (demo_heap (VNum 7) VNull) 0 !! k)
              → is_Some (props_of h' s' !! k)).
Proof.
  split; [reflexivity|].
  apply (userReducer_total_pure (demo_heap (VNum 7) VNull) 0 (VRef 1)).
  reflexivity.
Defined.

(** ** Idempotence *)

(** C7. Applying the same [SET_...] request twice gives the same record as
    applying it once: the second result has exactly the properties of the
    first. *)
Theorem set_request_idempotent (h : heap) (s : loc) (a : value)
    (ty k : string) (v : value) :
  set_kind ty k → is_request h a ty v →
  ∃ h1 s1 h2 s2,
    userReducer h s a = Ok (h1, s1)
    ∧ userReducer h1 s1 a = Ok (h2, s2)
    ∧ props_of h2 s2 = props_of h1 s1.
Proof.
  intros Hk Hreq.
  set (once := alloc h (<[k := v]> (props_of h s))).
  set (twice := alloc once.1 (<[k := v]> (props_of once.1 once.2))).
  pose proof (is_request_alloc h (<[k := v]> (props_of h s)) a ty v Hreq) as Hreq1.
  exists once.1, once.2, twice.1, twice.2.
  split; [exact (userReducer_set h s a ty k v Hk Hreq)|].
  split; [exact (userReducer_set once.1 once.2 a ty k v Hk Hreq1)|].
  subst twice. rewrite props_of_alloc_new.
  subst once. rewrite props_of_alloc_new.
  apply insert_insert_eq.
Qed.

Lemma set_request_idempotent_witness :
  set_kind "SET_EMAIL" "email"
  ∧ is_request (demo_heap (VStr "SET_EMAIL") (VStr "a@x.com")) (VRef 1)
      "SET_EMAIL" (VStr "a@x.com")
  ∧ ∃ h1 s1 h2 s2,
      userReducer (demo_heap (VStr "SET_EMAIL") (VStr "a@x.com")) 0 (VRef 1)
        = Ok (h1, s1)
      ∧ userReducer h1 s1 (VRef 1) = Ok (h2, s2)
      ∧ props_of h2 s2 = props_of h1 s1.
Proof.
  split; [constructor|].
  split; [split; reflexivity|].
  apply (set_request_idempotent _ 0 (VRef 1) "SET_EMAIL" "email" (VStr "a@x.com"));
    [constructor | split; reflexivity].
Defined.

(** The two results are equal as records, not as references: each
    application allocates its own object. *)
Lemma set_request_twice_distinct (h : heap) (s : loc) (a : value)
    (ty k : string) (v : value) (h1 h2 : heap) (s1 s2 : loc) :
  set_kind ty k → is_request h a ty v →
  userReducer h s a = Ok (h1, s1) →
  userReducer h1 s1 a = Ok (h2, s2) →
  s2 = S s1.
Proof.
  intros Hk Hreq H1 H2.
  pose proof (is_request_alloc h (<[k := v]> (props_of h s)) a ty v Hreq) as Hreq1.
  rewrite (userReducer_set h s a ty k v Hk Hreq) in H1.
  injection H1 as <- <-.
  rewrite (userReducer_set _ _ a ty k v Hk Hreq1) in H2.
  injection H2 as <- <-.
  rewrite length_app; simpl; lia.
Qed.

(** ** Payloads are stored as they come *)

Lemma well_typed_fields (h : heap) (l : loc) :
  well_typed h l = true ↔
  is_bool (field h l "isLoggedIn") = true
  ∧ is_string (field h l "username") = true
  ∧ is_string (field h l "email") = true.
Proof.
  unfold well_typed, has_field_type; simpl.
  rewrite !andb_true_iff. tauto.
Qed.

(** C10. The reducer stores the payload of a [SET_...] request verbatim,
    whatever its type: the property it sets reads exactly as the payload.
    From a well-typed state the result is well typed exactly when the
    payload has the type of that field, a boolean for [isLoggedIn] and a
    string for [username] and [email]. *)
Theorem payload_stored_verbatim (h : heap) (s : loc) (a : value)
    (ty k : string) (v : value) :
  set_kind ty k → is_request h a ty v → well_typed h s = true →
  ∃ h' s', userReducer h s a = Ok (h', s')
    ∧ field h' s' k = v
    ∧ well_typed h' s' = has_field_type k v.
Proof.
  intros Hk Hreq Hwt.
  destruct (userReducer_set_fields h s a ty k v Hk Hreq)
    as (h' & s' & Hrun & _ & Hset & Hother).
  exists h', s'. split; [done|]. split; [done|].
  apply well_typed_fields in Hwt as (Hb & Hu & He).
  unfold well_typed.
  destruct Hk; rewrite Hset;
    repeat (rewrite Hother by discriminate);
    unfold has_field_type; simpl;
    rewrite ?Hb, ?Hu, ?He; simpl;
    by rewrite ?andb_true_r.
Qed.

Lemma payload_stored_verbatim_witness :
  set_kind "SET_LOGGEDIN" "isLoggedIn"
  ∧ is_request (demo_heap (VStr "SET_LOGGEDIN") (VStr "yes")) (VRef 1)
      "SET_LOGGEDIN" (VStr "yes")
  ∧ well_typed (demo_heap (VStr "SET_LOGGEDIN") (VStr "yes")) 0 = true
  ∧ ∃ h' s',
      userReducer (demo_heap (VStr "SET_LOGGEDIN") (VStr "yes")) 0 (VRef 1)
        = Ok (h', s')
      ∧ field h' s' "isLoggedIn" = VStr "yes"
      ∧ well_typed h' s' = false.
Proof.
  split; [constructor|].
  split; [split; reflexivity|].
  split; [reflexivity|].
  apply (payload_stored_verbatim _ 0 (VRef 1) "SET_LOGGEDIN" "isLoggedIn"
           (VStr "yes")); [constructor | split; reflexivity | reflexivity].
Defined.

(** ** The store: creation, dispatch and access *)

(** Dispatching an object literal never throws. *)
Lemma send_ok (st : store) (ty : string) (v : value) :
  ∃ st', send st ty v = Ok st'.
Proof.
  unfold send, setUserState; simpl.
  destruct (userReducer_cases (st_heap st ++ [{[ "type" := VStr ty; "payload" := v ]}])
              (userState st) (VRef (length (st_heap st))) eq_refl)
    as [->|(ty' & k & v' & _ & _ & ->)]; simpl; eauto.
Qed.

(** C6. The record the store holds at creation is
    [{ isLoggedIn: false, username: '', email: '' }], and it is what the
    first render of the provider hands to the components below it. *)
Theorem initial_state :
  state_of mount = record false "" ""
  ∧ ManageUser_bindings (st_heap (UserProvider mount []).1) (UserProvider mount []).2
    = Ok (VRef (userState mount), dispatch_fn)
  ∧ field (st_heap mount) (userState mount) "isLoggedIn" = VBool false
  ∧ field (st_heap mount) (userState mount) "username" = VStr ""
  ∧ field (st_heap mount) (userState mount) "email" = VStr "".
Proof. repeat split. Qed.

(** C8. From the initial record, dispatching [SET_USERNAME "alice"],
    [SET_EMAIL "a@x.com"], [SET_LOGGEDIN true] and [SET_LOGGEDIN false] in
    this order gives the records [{false, "alice", ""}],
    [{false, "alice", "a@x.com"}], [{true, "alice", "a@x.com"}] and
    [{false, "alice", "a@x.com"}]. *)
Theorem scenario :
  ∃ st1 st2 st3 st4,
    send mount "SET_USERNAME" (VStr "alice") = Ok st1
    ∧ state_of st1 = record false "alice" ""
    ∧ send st1 "SET_EMAIL" (VStr "a@x.com") = Ok st2
    ∧ state_of st2 = record false "alice" "a@x.com"
    ∧ send st2 "SET_LOGGEDIN" (VBool true) = Ok st3
    ∧ state_of st3 = record true "alice" "a@x.com"
    ∧ send st3 "SET_LOGGEDIN" (VBool false) = Ok st4
    ∧ state_of st4 = record false "alice" "a@x.com".
Proof.
  eexists _, _, _, _.
  split; [reflexivity|]. split; [vm_compute; reflexivity|].
  split; [reflexivity|]. split; [vm_compute; reflexivity|].
  split; [reflexivity|]. split; [vm_compute; reflexivity|].
  split; [reflexivity|]. vm_compute; reflexivity.
Qed.

(** The same run through the handlers of [ManageUser]: typing in the two
    inputs and clicking the button twice. *)
Example scenario_handlers :
  ∃ st1 st2 st3 st4,
    handleInputChange mount "USERNAME" "alice" = Ok st1
    ∧ handleInputChange st1 "EMAIL" "a@x.com" = Ok st2
    ∧ handleLoggedIn st2 = Ok st3
    ∧ handleLoggedIn st3 = Ok st4
    ∧ state_of st3 = record true "alice" "a@x.com"
    ∧ state_of st4 = record false "alice" "a@x.com".
Proof.
  eexists _, _, _, _.
  split; [reflexivity|]. split; [reflexivity|].
  split; [reflexivity|]. split; [reflexivity|].
  split; vm_compute; reflexivity.
Qed.

(** A provider whose value is [null] counts as no provider. *)
Example useUserContext_null_provider :
  useUserContext [VNull]
  = Throw (Error "userContext needs to be within a Provider").
Proof. reflexivity. Qed.

(** C9. Outside any provider the accessor throws its error.  Below
    [UserProvider] it returns the provider's value, the object that holds
    the current state and the dispatch function.  The accessor throws
    nothing else, and it throws only on a missing ([null] or [undefined])
    context value; dispatching an action object never throws. *)
Theorem useUserContext_spec :
  useUserContext [] = Throw (Error "userContext needs to be within a Provider")
  ∧ (∀ st env, ∃ providerValue,
        (UserProvider st env).2 = VRef providerValue :: env
        ∧ useUserContext (UserProvider st env).2 = Ok (VRef providerValue)
        ∧ ManageUser_bindings (st_heap (UserProvider st env).1)
            (UserProvider st env).2
          = Ok (VRef (userState st), dispatch_fn)
        ∧ userState (UserProvider st env).1 = userState st)
  ∧ (∀ env,
        (is_nullish (React.useContext env) = true
         ∧ useUserContext env
           = Throw (Error "userContext needs to be within a Provider"))
        ∨ (is_nullish (React.useContext env) = false
           ∧ useUserContext env = Ok (React.useContext env)))
  ∧ (∀ st ty v, ∃ st', send st ty v = Ok st').
Proof.
  split; [reflexivity|].
  split.
  { intros st env. exists (length (st_heap st)).
    split; [reflexivity|]. split; [reflexivity|]. split; [|reflexivity].
    unfold ManageUser_bindings, UserProvider; simpl.
    unfold field. rewrite props_of_app_new. reflexivity. }
  split; [|apply send_ok].
  intros env. unfold useUserContext.
  destruct (is_nullish (React.useContext env)); [left|right]; done.
Qed.

(** ** Dispatching through the store *)

Section store_facts.
Implicit Types (st : store) (h : heap) (ty k : string) (v : value).

(** The object literal of [send] reads as the request it spells. *)
Lemma action_literal_is_request h ty v :
  is_request (h ++ [{[ "type" := VStr ty; "payload" := v ]}])%list
    (VRef (length h)) ty v.
Proof.
  unfold is_request, get_prop, field. rewrite props_of_app_new.
  split; [by rewrite lookup_insert_eq|].
  by rewrite lookup_insert_ne, lookup_singleton_eq.
Qed.

Lemma props_of_app_old h (more : heap) (l : loc) :
  (l < length h)%nat → props_of (h ++ more)%list l = props_of h l.
Proof. intros Hl. unfold props_of. by rewrite lookup_app_l. Qed.

(** A [SET_...] dispatch appends the action and the new state to the heap
    and moves the store to the new state. *)
Lemma send_set_eq st ty k v :
  store_ok st → set_kind ty k →
  send st ty v
  = Ok (Store ((st_heap st ++ [{[ "type" := VStr ty; "payload" := v ]}])
                 ++ [<[k := v]> (state_of st)])%list
          (S (length (st_heap st)))).
Proof.
  intros Hok Hk. unfold send, setUserState; simpl.
  rewrite (userReducer_set _ _ _ ty k v Hk (action_literal_is_request _ ty v)).
  simpl. rewrite (props_of_app_old _ _ _ Hok).
  by rewrite length_app, Nat.add_comm.
Qed.

(** Any other dispatch appends the action only. *)
Lemma send_other_eq st ty v :
  ty ≠ "SET_LOGGEDIN" → ty ≠ "SET_USERNAME" → ty ≠ "SET_EMAIL" →
  send st ty v
  = Ok (Store (st_heap st ++ [{[ "type" := VStr ty; "payload" := v ]}])%list
          (userState st)).
Proof.
  intros H1 H2 H3. unfold send, setUserState; simpl.
  destruct (action_literal_is_request (st_heap st) ty v) as [Hty _].
  rewrite (userReducer_default _ _ _ (VStr ty) Hty) by congruence.
  done.
Qed.

Lemma state_of_set h (act new : props) :
  state_of (Store ((h ++ [act]) ++ [new])%list (S (length h))) = new.
Proof.
  unfold state_of; simpl.
  replace (S (length h)) with (length (h ++ [act])%list)
    by (rewrite length_app; simpl; lia).
  apply props_of_app_new.
Qed.

Lemma store_ok_set h (act new : props) :
  store_ok (Store ((h ++ [act]) ++ [new])%list (S (length h))).
Proof. unfold store_ok; simpl. rewrite !length_app; simpl; lia. Qed.

(** The result of a [SET_...] dispatch, by its record. *)
Lemma send_set st ty k v :
  store_ok st → set_kind ty k →
  ∃ st', send st ty v = Ok st'
    ∧ state_of st' = <[k := v]> (state_of st)
    ∧ store_ok st'.
Proof.
  intros Hok Hk. eexists. split; [by apply send_set_eq|].
  split; [apply state_of_set | apply store_ok_set].
Qed.


End store_facts.

(** ** Records *)

Section record_facts.
Implicit Types (b : bool) (u e : string).





End record_facts.

(** ** Dispatches compose *)

(** A dispatch returns and only appends to the heap. *)
Lemma send_prefix (st : store) (ty : string) (v : value) :
  ∃ st', send st ty v = Ok st' ∧ st_heap st `prefix_of` st_heap st'.
Proof.
  unfold send, setUserState; simpl.
  destruct (userReducer_cases (st_heap st ++ [{[ "type" := VStr ty; "payload" := v ]}])
              (userState st) (VRef (length (st_heap st))) eq_refl)
    as [->|(ty' & k & v' & _ & _ & ->)]; simpl; eexists; (split; [done|]); simpl.
  - by eexists.
  - rewrite <- app_assoc. by eexists.
Qed.

Lemma fire_prefix (st : store) (ev : ui_event) :
  ∃ st', fire st ev = Ok st' ∧ st_heap st `prefix_of` st_heap st'.
Proof.
  destruct ev as [text|text|]; simpl;
    unfold handleInputChange, handleLoggedIn; simpl; apply send_prefix.
Qed.

(** X1. No run of page events throws, and none changes an object that
    exists: the heap after the run is the heap before it with new objects
    appended, so every earlier state still reads as it did. *)
Theorem fire_all_total_pure (st : store) (evs : list ui_event) :
  ∃ st', fire_all st evs = Ok st'
    ∧ st_heap st `prefix_of` st_heap st'
    ∧ ∀ l p, st_heap st !! l = Some p → st_heap st' !! l = Some p.
Proof.
  assert (∃ st', fire_all st evs = Ok st' ∧ st_heap st `prefix_of` st_heap st')
    as (st' & Hrun & Hpre).
  { revert st. induction evs as [|ev evs IH]; intros st; simpl.
    - by exists st.
    - destruct (fire_prefix st ev) as (st1 & -> & Hpre1); simpl.
      destruct (IH st1) as (st' & Hrun & Hpre).
      exists st'. split; [done|]. by etransitivity. }
  exists st'. split; [done|]. split; [done|].
  intros l p Hl. destruct Hpre as [more ->]. by apply lookup_app_l_Some.
Qed.

(** X2. Last write wins: two dispatches of the same [SET_...] kind leave
    the record that the second one alone would leave. *)
Theorem send_last_write_wins (st : store) (ty k : string) (v1 v2 : value) :
  store_ok st → set_kind ty k →
  ∃ st1 st12 st2,
    send st ty v1 = Ok st1
    ∧ send st1 ty v2 = Ok st12
    ∧ send st ty v2 = Ok st2
    ∧ state_of st12 = state_of st2.
Proof.
  intros Hok Hk.
  destruct (send_set st ty k v1 Hok Hk) as (st1 & Hrun1 & Hst1 & Hok1).
  destruct (send_set st1 ty k v2 Hok1 Hk) as (st12 & Hrun12 & Hst12 & _).
  destruct (send_set st ty k v2 Hok Hk) as (st2 & Hrun2 & Hst2 & _).
  exists st1, st12, st2. repeat split; try done.
  rewrite Hst12, Hst1, Hst2. apply insert_insert_eq.
Qed.

Lemma send_last_write_wins_witness :
  store_ok mount ∧ set_kind "SET_USERNAME" "username"
  ∧ ∃ st1 st12 st2,
      send mount "SET_USERNAME" (VStr "al") = Ok st1
      ∧ send st1 "SET_USERNAME" (VStr "alice") = Ok st12
      ∧ send mount "SET_USERNAME" (VStr "alice") = Ok st2
      ∧ state_of st12 = state_of st2.
Proof.
  split; [unfold store_ok; simpl; lia|].
  split; [constructor|].
  apply (send_last_write_wins mount "SET_USERNAME" "username"
           (VStr "al") (VStr "alice")); [unfold store_ok; simpl; lia | constructor].
Defined.

(** X3. Dispatches of two different [SET_...] kinds commute: either order
    leaves the same record. *)
Theorem send_commute (st : store) (ty1 k1 ty2 k2 : string) (v1 v2 : value) :
  store_ok st → set_kind ty1 k1 → set_kind ty2 k2 → k1 ≠ k2 →
  ∃ st1 st12 st2 st21,
    send st ty1 v1 = Ok st1 ∧ send st1 ty2 v2 = Ok st12
    ∧ send st ty2 v2 = Ok st2 ∧ send st2 ty1 v1 = Ok st21
    ∧ state_of st12 = state_of st21.
Proof.
  intros Hok Hk1 Hk2 Hne.
  destruct (send_set st ty1 k1 v1 Hok Hk1) as (st1 & Hrun1 & Hst1 & Hok1).
  destruct (send_set st1 ty2 k2 v2 Hok1 Hk2) as (st12 & Hrun12 & Hst12 & _).
  destruct (send_set st ty2 k2 v2 Hok Hk2) as (st2 & Hrun2 & Hst2 & Hok2).
  destruct (send_set st2 ty1 k1 v1 Hok2 Hk1) as (st21 & Hrun21 & Hst21 & _).
  exists st1, st12, st2, st21. repeat split; try done.
  rewrite Hst12, Hst1, Hst21, Hst2. by apply insert_insert_ne.
Qed.

Lemma send_commute_witness :
  store_ok mount
  ∧ set_kind "SET_USERNAME" "username" ∧ set_kind "SET_EMAIL" "email"
  ∧ "username" ≠ "email"
  ∧ ∃ st1 st12 st2 st21,
      send mount "SET_USERNAME" (VStr "alice") = Ok st1
      ∧ send st1 "SET_EMAIL" (VStr "a@x.com") = Ok st12
      ∧ send mount "SET_EMAIL" (VStr "a@x.com") = Ok st2
      ∧ send st2 "SET_USERNAME" (VStr "alice") = Ok st21
      ∧ state_of st12 = state_of st21.
Proof.
  split; [unfold store_ok; simpl; lia|].
  split; [constructor|]. split; [constructor|]. split; [discriminate|].
  apply (send_commute mount "SET_USERNAME" "username" "SET_EMAIL" "email"
           (VStr "alice") (VStr "a@x.com"));
    [unfold store_ok; simpl; lia | constructor | constructor | discriminate].
Defined.

(** ** The handlers of [ManageUser] *)

Section handler_facts.
Implicit Types (st : store) (h : heap) (l : loc) (k ty name text : string).

Lemma set_name_inj name1 name2 :
  "SET_" ++ name1 = "SET_" ++ name2 → name1 = name2.
Proof. intros H. cbv [String.append] in H. congruence. Qed.

Lemma field_of_props h l h' l' k :
  props_of h' l' = props_of h l → field h' l' k = field h l k.
Proof. unfold field. by intros ->. Qed.

Lemma field_after_set h l h' l' k (v : value) :
  props_of h' l' = <[k := v]> (props_of h l) →
  field h' l' k = v ∧ ∀ k', k' ≠ k → field h' l' k' = field h l k'.
Proof.
  intros Hp. unfold field. rewrite Hp. split.
  - by rewrite lookup_insert_eq.
  - intros k' Hne. by rewrite lookup_insert_ne.
Qed.

Lemma well_typed_after_set h l h' l' ty k (v : value) :
  set_kind ty k →
  props_of h' l' = <[k := v]> (props_of h l) →
  well_typed h l = true →
  well_typed h' l' = has_field_type k v.
Proof.
  intros Hk Hp Hwt.
  destruct (field_after_set h l h' l' k v Hp) as [Hset Hother].
  apply well_typed_fields in Hwt as (Hb & Hu & He).
  unfold well_typed.
  destruct Hk; rewrite Hset;
    repeat (rewrite Hother by discriminate);
    unfold has_field_type; simpl;
    rewrite ?Hb, ?Hu, ?He; simpl;
    by rewrite ?andb_true_r.
Qed.

Lemma well_typed_of_props h l h' l' :
  props_of h' l' = props_of h l → well_typed h' l' = well_typed h l.
Proof.
  intros Hp. unfold well_typed.
  by rewrite !(field_of_props h l h' l' _ Hp).
Qed.

(** The click handler is the closure over the current state. *)
Lemma handleLoggedIn_as_closure st :
  handleLoggedIn st = handleLoggedIn_closure (VRef (userState st)) st.
Proof. reflexivity. Qed.

(** What the closure dispatches. *)
Lemma handleLoggedIn_closure_send st l :
  handleLoggedIn_closure (VRef l) st
  = send st "SET_LOGGEDIN"
      (VBool (negb (to_boolean (field (st_heap st) l "isLoggedIn")))).
Proof. reflexivity. Qed.

Lemma handleLoggedIn_set st :
  store_ok st →
  ∃ st', handleLoggedIn st = Ok st'
    ∧ state_of st'
      = <["isLoggedIn" :=
            VBool (negb (to_boolean
                           (field (st_heap st) (userState st) "isLoggedIn")))]>
          (state_of st)
    ∧ store_ok st'.
Proof.
  intros Hok. rewrite handleLoggedIn_as_closure, handleLoggedIn_closure_send.
  by apply (send_set st "SET_LOGGEDIN" "isLoggedIn"); [|constructor].
Qed.

Lemma lookup_of_field_bool (p : props) k (b : bool) :
  default VUndefined (p !! k) = VBool b → p !! k = Some (VBool b).
Proof. destruct (p !! k); simpl; [by intros ->|discriminate]. Qed.

End handler_facts.

(** X4. A change of the input named [USERNAME] replaces [username] by the
    typed text, a change of the input named [EMAIL] replaces [email]; every
    other property of the record stays. *)
Theorem handleInputChange_inputs (st : store) (text : string) :
  store_ok st →
  ∃ st1 st2,
    handleInputChange st "USERNAME" text = Ok st1
    ∧ state_of st1 = <["username" := VStr text]> (state_of st)
    ∧ handleInputChange st "EMAIL" text = Ok st2
    ∧ state_of st2 = <["email" := VStr text]> (state_of st).
Proof.
  intros Hok. unfold handleInputChange.
  destruct (send_set st "SET_USERNAME" "username" (VStr text) Hok set_username)
    as (st1 & Hrun1 & Hst1 & _).
  destruct (send_set st "SET_EMAIL" "email" (VStr text) Hok set_email)
    as (st2 & Hrun2 & Hst2 & _).
  by exists st1, st2.
Qed.

Lemma handleInputChange_inputs_witness :
  store_ok mount
  ∧ ∃ st1 st2,
      handleInputChange mount "USERNAME" "alice" = Ok st1
      ∧ state_of st1 = <["username" := VStr "alice"]> (state_of mount)
      ∧ handleInputChange mount "EMAIL" "alice" = Ok st2
      ∧ state_of st2 = <["email" := VStr "alice"]> (state_of mount).
Proof.
  split; [unfold store_ok; simpl; lia|].
  apply (handleInputChange_inputs mount "alice"). unfold store_ok; simpl; lia.
Defined.

(** X5. A change event from an element whose name is none of [LOGGEDIN],
    [USERNAME], [EMAIL] is dispatched and ignored: the store keeps the very
    same state object and its record. *)
Theorem handleInputChange_unknown_name (st : store) (name text : string) :
  store_ok st →
  name ≠ "LOGGEDIN" → name ≠ "USERNAME" → name ≠ "EMAIL" →
  ∃ st', handleInputChange st name text = Ok st'
    ∧ userState st' = userState st
    ∧ state_of st' = state_of st.
Proof.
  intros Hok H1 H2 H3. unfold handleInputChange.
  rewrite send_other_eq;
    [| intros H; by apply (set_name_inj name "LOGGEDIN") in H
     | intros H; by apply (set_name_inj name "USERNAME") in H
     | intros H; by apply (set_name_inj name "EMAIL") in H ].
  eexists. split; [done|]. split; [done|].
  unfold state_of; simpl. by apply props_of_app_old.
Qed.

Lemma handleInputChange_unknown_name_witness :
  store_ok mount
  ∧ ∃ st', handleInputChange mount "PHONE" "555" = Ok st'
      ∧ userState st' = userState mount
      ∧ state_of st' = state_of mount.
Proof.
  split; [unfold store_ok; simpl; lia|].
  apply (handleInputChange_unknown_name mount "PHONE" "555");
    [unfold store_ok; simpl; lia | discriminate | discriminate | discriminate].
Defined.

(** X6. From a well-typed record, a change event leaves a well-typed record
    for every element name but [LOGGEDIN]: under that name the typed text,
    a string, is stored in [isLoggedIn]. *)
Theorem handleInputChange_typing (st : store) (name text : string) :
  store_ok st →
  well_typed (st_heap st) (userState st) = true →
  ∃ st', handleInputChange st name text = Ok st'
    ∧ well_typed (st_heap st') (userState st')
      = negb (bool_decide (name = "LOGGEDIN")).
Proof.
  intros Hok Hwt.
  destruct (decide (name = "LOGGEDIN")) as [->|H1].
  { destruct (send_set st "SET_LOGGEDIN" "isLoggedIn" (VStr text) Hok set_loggedin)
      as (st' & Hrun & Hst & _).
    exists st'. split; [done|].
    by rewrite (well_typed_after_set _ _ _ _ _ _ _ set_loggedin Hst Hwt). }
  rewrite bool_decide_eq_false_2 by done; simpl.
  destruct (decide (name = "USERNAME")) as [->|H2].
  { destruct (send_set st "SET_USERNAME" "username" (VStr text) Hok set_username)
      as (st' & Hrun & Hst & _).
    exists st'. split; [done|].
    by rewrite (well_typed_after_set _ _ _ _ _ _ _ set_username Hst Hwt). }
  destruct (decide (name = "EMAIL")) as [->|H3].
  { destruct (send_set st "SET_EMAIL" "email" (VStr text) Hok set_email)
      as (st' & Hrun & Hst & _).
    exists st'. split; [done|].
    by rewrite (well_typed_after_set _ _ _ _ _ _ _ set_email Hst Hwt). }
  unfold handleInputChange.
  rewrite send_other_eq;
    [| intros H; by apply (set_name_inj name "LOGGEDIN") in H
     | intros H; by apply (set_name_inj name "USERNAME") in H
     | intros H; by apply (set_name_inj name "EMAIL") in H ].
  eexists. split; [done|]. simpl.
  rewrite <- Hwt. apply well_typed_of_props. by apply props_of_app_old.
Qed.

Lemma handleInputChange_typing_witness :
  store_ok mount
  ∧ well_typed (st_heap mount) (userState mount) = true
  ∧ ∃ st', handleInputChange mount "LOGGEDIN" "yes" = Ok st'
      ∧ well_typed (st_heap st') (userState st') = false.
Proof.
  split; [unfold store_ok; simpl; lia|].
  split; [reflexivity|].
  apply (handleInputChange_typing mount "LOGGEDIN" "yes");
    [unfold store_ok; simpl; lia | reflexivity].
Defined.

(** X7. A click stores a boolean in [isLoggedIn], the negation of the
    truthiness of what was there, whatever that was, and leaves [username]
    and [email] as they were. *)
Theorem handleLoggedIn_negates (st : store) :
  store_ok st →
  ∃ st', handleLoggedIn st = Ok st'
    ∧ field (st_heap st') (userState st') "isLoggedIn"
      = VBool (negb (to_boolean
                       (field (st_heap st) (userState st) "isLoggedIn")))
    ∧ field (st_heap st') (userState st') "username"
      = field (st_heap st) (userState st) "username"
    ∧ field (st_heap st') (userState st') "email"
      = field (st_heap st) (userState st) "email".
Proof.
  intros Hok.
  destruct (handleLoggedIn_set st Hok) as (st' & Hrun & Hst & _).
  destruct (field_after_set _ _ _ _ _ _ Hst) as [Hset Hother].
  exists st'. split; [done|]. split; [done|].
  split; by apply Hother.
Qed.

Lemma handleLoggedIn_negates_witness :
  store_ok mount
  ∧ ∃ st', handleLoggedIn mount = Ok st'
      ∧ field (st_heap st') (userState st') "isLoggedIn" = VBool true
      ∧ field (st_heap st') (userState st') "username"
        = field (st_heap mount) (userState mount) "username"
      ∧ field (st_heap st') (userState st') "email"
        = field (st_heap mount) (userState mount) "email".
Proof.
  split; [unfold store_ok; simpl; lia|].
  apply (handleLoggedIn_negates mount). unfold store_ok; simpl; lia.
Defined.

(** X8. Two clicks, each on the state the previous one left, bring a
    boolean [isLoggedIn] back: the record after the second click is the
    record before the first. *)
Theorem handleLoggedIn_twice (st : store) (b : bool) :
  store_ok st →
  field (st_heap st) (userState st) "isLoggedIn" = VBool b →
  ∃ st1 st2,
    handleLoggedIn st = Ok st1
    ∧ handleLoggedIn st1 = Ok st2
    ∧ state_of st1 = <["isLoggedIn" := VBool (negb b)]> (state_of st)
    ∧ state_of st2 = state_of st.
Proof.
  intros Hok Hb.
  destruct (handleLoggedIn_set st Hok) as (st1 & Hrun1 & Hst1 & Hok1).
  destruct (handleLoggedIn_set st1 Hok1) as (st2 & Hrun2 & Hst2 & _).
  rewrite Hb in Hst1; simpl in Hst1.
  destruct (field_after_set _ _ _ _ _ _ Hst1) as [Hset1 _].
  rewrite Hset1 in Hst2; simpl in Hst2.
  exists st1, st2. split; [done|]. split; [done|]. split; [done|].
  rewrite Hst2, Hst1, insert_insert_eq, negb_involutive.
  apply insert_id. by apply lookup_of_field_bool.
Qed.

Lemma handleLoggedIn_twice_witness :
  store_ok mount
  ∧ field (st_heap mount) (userState mount) "isLoggedIn" = VBool false
  ∧ ∃ st1 st2,
      handleLoggedIn mount = Ok st1
      ∧ handleLoggedIn st1 = Ok st2
      ∧ state_of st1 = <["isLoggedIn" := VBool true]> (state_of mount)
      ∧ state_of st2 = state_of mount.
Proof.
  split; [unfold store_ok; simpl; lia|].
  split; [reflexivity|].
  apply (handleLoggedIn_twice mount false);
    [unfold store_ok; simpl; lia | reflexivity].
Defined.

(** X9. The click handler computes its payload from the state its render
    captured, not from the state of the store: the same closure called
    twice dispatches the same value twice, and the second call leaves the
    record of the first instead of flipping the flag back. *)
Theorem handleLoggedIn_closure_twice (st : store) (captured : loc) :
  store_ok st →
  (captured < length (st_heap st))%nat →
  ∃ st1 st2,
    handleLoggedIn_closure (VRef captured) st = Ok st1
    ∧ handleLoggedIn_closure (VRef captured) st1 = Ok st2
    ∧ state_of st2 = state_of st1
    ∧ field (st_heap st2) (userState st2) "isLoggedIn"
      = VBool (negb (to_boolean (field (st_heap st) captured "isLoggedIn"))).
Proof.
  intros Hok Hlive.
  rewrite handleLoggedIn_closure_send.
  set (v := VBool (negb (to_boolean (field (st_heap st) captured "isLoggedIn")))).
  pose proof (send_set_eq st "SET_LOGGEDIN" "isLoggedIn" v Hok set_loggedin) as Hrun1.
  destruct (send_set st "SET_LOGGEDIN" "isLoggedIn" v Hok set_loggedin)
    as (st1 & Hrun1' & Hst1 & Hok1).
  assert (field (st_heap st1) captured "isLoggedIn"
          = field (st_heap st) captured "isLoggedIn") as Hsame.
  { rewrite Hrun1 in Hrun1'. injection Hrun1' as <-. simpl.
    apply field_of_props. rewrite <- app_assoc. by apply props_of_app_old. }
  destruct (send_set st1 "SET_LOGGEDIN" "isLoggedIn" v Hok1 set_loggedin)
    as (st2 & Hrun2 & Hst2 & _).
  exists st1, st2. split; [done|].
  split; [by rewrite handleLoggedIn_closure_send, Hsame|].
  split; [rewrite Hst2, Hst1; apply insert_insert_eq|].
  by destruct (field_after_set _ _ _ _ _ _ Hst2) as [-> _].
Qed.

Lemma handleLoggedIn_closure_twice_witness :
  store_ok mount
  ∧ (userState mount < length (st_heap mount))%nat
  ∧ ∃ st1 st2,
      handleLoggedIn_closure (VRef (userState mount)) mount = Ok st1
      ∧ handleLoggedIn_closure (VRef (userState mount)) st1 = Ok st2
      ∧ state_of st2 = state_of st1
      ∧ field (st_heap st2) (userState st2) "isLoggedIn" = VBool true.
Proof.
  split; [unfold store_ok; simpl; lia|].
  split; [simpl; lia|].
  apply (handleLoggedIn_closure_twice mount (userState mount));
    [unfold store_ok; simpl; lia | simpl; lia].
Defined.

(** ** Runs of page events *)

Section runs.
Implicit Types (st : store) (ev : ui_event) (evs : list ui_event).


Lemma fire_well_typed st ev :
  store_ok st → well_typed (st_heap st) (userState st) = true →
  ∃ st', fire st ev = Ok st'
    ∧ well_typed (st_heap st') (userState st') = true
    ∧ store_ok st'.
Proof.
  intros Hok Hwt. destruct ev as [text|text|]; simpl.
  - destruct (send_set st "SET_USERNAME" "username" (VStr text) Hok set_username)
      as (st' & Hrun & Hst & Hok').
    exists st'. split; [done|]. split; [|done].
    by rewrite (well_typed_after_set _ _ _ _ _ _ _ set_username Hst Hwt).
  - destruct (send_set st "SET_EMAIL" "email" (VStr text) Hok set_email)
      as (st' & Hrun & Hst & Hok').
    exists st'. split; [done|]. split; [|done].
    by rewrite (well_typed_after_set _ _ _ _ _ _ _ set_email Hst Hwt).
  - destruct (handleLoggedIn_set st Hok) as (st' & Hrun & Hst & Hok').
    exists st'. split; [done|]. split; [|done].
    by rewrite (well_typed_after_set _ _ _ _ _ _ _ set_loggedin Hst Hwt).
Qed.



End runs.

(** X10. The page cannot break the typing of the record: from a well-typed
    record, every run of events of the three controls returns and leaves a
    well-typed record. *)
Theorem fire_all_well_typed (st : store) (evs : list ui_event) :
  store_ok st → well_typed (st_heap st) (userState st) = true →
  ∃ st', fire_all st evs = Ok st'
    ∧ well_typed (st_heap st') (userState st') = true.
Proof.
  revert st. induction evs as [|ev evs IH]; intros st Hok Hwt; simpl.
  - by exists st.
  - destruct (fire_well_typed st ev Hok Hwt) as (st1 & -> & Hwt1 & Hok1); simpl.
    by apply IH.
Qed.

Lemma fire_all_well_typed_witness :
  store_ok mount
  ∧ well_typed (st_heap mount) (userState mount) = true
  ∧ ∃ st', fire_all mount [ChangeUsername "alice"; ClickButton] = Ok st'
      ∧ well_typed (st_heap st') (userState st') = true.
Proof.
  split; [unfold store_ok; simpl; lia|].
  split; [reflexivity|].
  apply (fire_all_well_typed mount [ChangeUsername "alice"; ClickButton]);
    [unfold store_ok; simpl; lia | reflexivity].
Defined.




(** ** The consumers of the context *)

Section consumers.
Implicit Types (st : store) (h : heap) (env : React.providers).

Lemma provider_env st env :
  (UserProvider st env).2 = VRef (length (st_heap st)) :: env.
Proof. reflexivity. Qed.

Lemma provider_heap st env :
  st_heap (UserProvider st env).1
  = (st_heap st
       ++ [{[ "userState" := VRef (userState st);
              "setUserState" := dispatch_fn ]}])%list.
Proof. reflexivity. Qed.

Lemma provider_userState_field st env :
  field (st_heap (UserProvider st env).1) (length (st_heap st)) "userState"
  = VRef (userState st).
Proof.
  rewrite provider_heap. unfold field. by rewrite props_of_app_new.
Qed.

Lemma provider_keeps_state st env k :
  store_ok st →
  field (st_heap (UserProvider st env).1) (userState st) k
  = field (st_heap st) (userState st) k.
Proof.
  intros Hok. rewrite provider_heap.
  apply field_of_props. by apply props_of_app_old.
Qed.

(** Below [UserProvider] the consumers show the record of the store. *)
Lemma consumers_under_provider st env :
  store_ok st →
  ManageUser (st_heap (UserProvider st env).1) (UserProvider st env).2
  = Ok (controls_of (st_heap st) (userState st))
  ∧ IsUserLoggedIn (st_heap (UserProvider st env).1) (UserProvider st env).2
    = Ok (banner_of (st_heap st) (userState st)).
Proof.
  intros Hok. rewrite provider_env.
  unfold ManageUser, ManageUser_bindings, IsUserLoggedIn, useUserContext; simpl.
  change (st_heap st ++ _)%list with (st_heap (UserProvider st env).1).
  rewrite provider_userState_field; simpl.
  rewrite !(provider_keeps_state st env _ Hok).
  unfold controls_of, banner_of.
  split; [done|].
  by destruct (to_boolean (field (st_heap st) (userState st) "isLoggedIn")).
Qed.

End consumers.

(** X13. The banner and the button agree under every context: whenever
    [ManageUser] renders, [IsUserLoggedIn] shows [WELCOME!!] exactly when
    the button reads [Log Out]; and when [ManageUser] throws, so does
    [IsUserLoggedIn]. *)
Theorem banner_matches_button (h : heap) (env : React.providers) :
  match ManageUser h env with
  | Ok c =>
      IsUserLoggedIn h env
      = Ok (if bool_decide (button_text c = "Log Out")
            then Some "WELCOME!!" else None)
  | Throw _ => ∃ e, IsUserLoggedIn h env = Throw e
  end.
Proof.
  unfold ManageUser, ManageUser_bindings, IsUserLoggedIn, useUserContext.
  destruct (is_nullish (React.useContext env)) eqn:Hctx; simpl; [by eexists|].
  destruct (get_prop_not_nullish h _ "userState" Hctx) as [us ->].
  destruct (get_prop_not_nullish h _ "setUserState" Hctx) as [set ->]; simpl.
  destruct (is_nullish us) eqn:Hus.
  - destruct us; try discriminate; simpl; by eexists.
  - destruct (get_prop_not_nullish h us "username" Hus) as [u ->].
    destruct (get_prop_not_nullish h us "email" Hus) as [e ->].
    destruct (get_prop_not_nullish h us "isLoggedIn" Hus) as [b ->]; simpl.
    by destruct (to_boolean b).
Qed.

(** X14. Below [UserProvider] the consumers never throw and show the
    record of the store: the inputs hold [username] and [email], the button
    reads [Log Out] and the banner is shown exactly when [isLoggedIn] is
    truthy. *)
Theorem consumers_show_state (st : store) (env : React.providers) :
  store_ok st →
  ManageUser (st_heap (UserProvider st env).1) (UserProvider st env).2
  = Ok (Controls (field (st_heap st) (userState st) "username")
          (field (st_heap st) (userState st) "email")
          (if to_boolean (field (st_heap st) (userState st) "isLoggedIn")
           then "Log Out" else "Log In"))
  ∧ IsUserLoggedIn (st_heap (UserProvider st env).1) (UserProvider st env).2
    = Ok (if to_boolean (field (st_heap st) (userState st) "isLoggedIn")
          then Some "WELCOME!!" else None).
Proof.
  intros Hok. rewrite provider_env.
  unfold ManageUser, ManageUser_bindings, IsUserLoggedIn, useUserContext; simpl.
  change (st_heap st ++ _)%list with (st_heap (UserProvider st env).1).
  rewrite provider_userState_field; simpl.
  rewrite !(provider_keeps_state st env _ Hok).
  split; [done|].
  by destruct (to_boolean (field (st_heap st) (userState st) "isLoggedIn")).
Qed.

Lemma consumers_show_state_witness :
  store_ok mount
  ∧ ManageUser (st_heap (UserProvider mount []).1) (UserProvider mount []).2
    = Ok (Controls (VStr "") (VStr "") "Log In")
  ∧ IsUserLoggedIn (st_heap (UserProvider mount []).1) (UserProvider mount []).2
    = Ok None.
Proof.
  split; [unfold store_ok; simpl; lia|].
  apply (consumers_show_state mount []). unfold store_ok; simpl; lia.
Defined.

(** X15. What is typed is what is shown: after a change of the [USERNAME]
    (of the [EMAIL]) input with some text, the next render below the
    provider puts that text in that input. *)
Theorem typed_text_is_shown (st : store) (env : React.providers)
    (text : string) :
  store_ok st →
  ∃ st1 st2 c1 c2,
    handleInputChange st "USERNAME" text = Ok st1
    ∧ ManageUser (st_heap (UserProvider st1 env).1) (UserProvider st1 env).2
      = Ok c1
    ∧ username_input c1 = VStr text
    ∧ handleInputChange st "EMAIL" text = Ok st2
    ∧ ManageUser (st_heap (UserProvider st2 env).1) (UserProvider st2 env).2
      = Ok c2
    ∧ email_input c2 = VStr text.
Proof.
  intros Hok. unfold handleInputChange.
  destruct (send_set st "SET_USERNAME" "username" (VStr text) Hok set_username)
    as (st1 & Hrun1 & Hst1 & Hok1).
  destruct (send_set st "SET_EMAIL" "email" (VStr text) Hok set_email)
    as (st2 & Hrun2 & Hst2 & Hok2).
  destruct (consumers_under_provider st1 env Hok1) as [Hc1 _].
  destruct (consumers_under_provider st2 env Hok2) as [Hc2 _].
  exists st1, st2, (controls_of (st_heap st1) (userState st1)),
    (controls_of (st_heap st2) (userState st2)).
  split; [done|]. split; [done|].
  split; [simpl; by destruct (field_after_set _ _ _ _ _ _ Hst1) as [-> _]|].
  split; [done|]. split; [done|].
  simpl; by destruct (field_after_set _ _ _ _ _ _ Hst2) as [-> _].
Qed.

Lemma typed_text_is_shown_witness :
  store_ok mount
  ∧ ∃ st1 st2 c1 c2,
      handleInputChange mount "USERNAME" "alice" = Ok st1
      ∧ ManageUser (st_heap (UserProvider st1 []).1) (UserProvider st1 []).2
        = Ok c1
      ∧ username_input c1 = VStr "alice"
      ∧ handleInputChange mount "EMAIL" "alice" = Ok st2
      ∧ ManageUser (st_heap (UserProvider st2 []).1) (UserProvider st2 []).2
        = Ok c2
      ∧ email_input c2 = VStr "alice".
Proof.
  split; [unfold store_ok; simpl; lia|].
  apply (typed_text_is_shown mount [] "alice"). unfold store_ok; simpl; lia.
Defined.

(** X16. [IsUserLoggedIn] fails in exactly two ways: with the error of the
    accessor when the context value is [null] or [undefined], and with a
    [TypeError] when the context value has no [userState] to read
    [isLoggedIn] from; in every other case it renders. *)
Theorem IsUserLoggedIn_failures (h : heap) (env : React.providers) :
  (is_nullish (React.useContext env) = true
   ∧ IsUserLoggedIn h env
     = Throw (Error "userContext needs to be within a Provider"))
  ∨ (∃ us msg,
       is_nullish (React.useContext env) = false
       ∧ get_prop h (React.useContext env) "userState" = Ok us
       ∧ is_nullish us = true
       ∧ IsUserLoggedIn h env = Throw (TypeError msg))
  ∨ (∃ us isLoggedIn,
       is_nullish (React.useContext env) = false
       ∧ get_prop h (React.useContext env) "userState" = Ok us
       ∧ get_prop h us "isLoggedIn" = Ok isLoggedIn
       ∧ IsUserLoggedIn h env
         = Ok (if to_boolean isLoggedIn then Some "WELCOME!!" else None)).
Proof.
  unfold IsUserLoggedIn, useUserContext.
  destruct (is_nullish (React.useContext env)) eqn:Hctx; simpl; [by left|].
  right.
  destruct (get_prop_not_nullish h _ "userState" Hctx) as [us Hus].
  rewrite Hus; simpl.
  destruct (is_nullish us) eqn:Hn.
  - left. destruct us; try discriminate; simpl; by eexists _, _.
  - right. destruct (get_prop_not_nullish h us "isLoggedIn" Hn) as [b Hb].
    exists us, b. rewrite Hb; simpl.
    repeat split; try done. by destruct (to_boolean b).
Qed.

(** X17. Every render of [UserProvider] hands down a new object: rendering
    again on an unchanged state gives a provider value with the same two
    properties under another reference. *)
Theorem provider_value_is_fresh (st : store) (env : React.providers) :
  ∃ first second,
    (UserProvider st env).2 = VRef first :: env
    ∧ (UserProvider (UserProvider st env).1 env).2 = VRef second :: env
    ∧ first ≠ second
    ∧ userState (UserProvider (UserProvider st env).1 env).1 = userState st
    ∧ props_of (st_heap (UserProvider (UserProvider st env).1 env).1) second
      = props_of (st_heap (UserProvider st env).1) first.
Proof.
  exists (length (st_heap st)), (length (st_heap (UserProvider st env).1)).
  split; [reflexivity|]. split; [reflexivity|].
  split; [rewrite provider_heap, length_app; simpl; lia|].
  split; [reflexivity|].
  rewrite (provider_heap (UserProvider st env).1 env).
  rewrite props_of_app_new.
  rewrite (provider_heap st env). by rewrite props_of_app_new.
Qed.

(** ** Actions that are not objects *)



(** X19. Dispatching a primitive or a function (a boolean, a number, a
    string, a function value) is ignored: its [type] reads [undefined], the
    [default] arm is taken and the store stays exactly as it was. *)
Theorem setUserState_primitive_ignored (st : store) (a : value) :
  is_nullish a = false → (∀ l, a ≠ VRef l) →
  setUserState st a = Ok st.
Proof.
  intros Ha Hprim. unfold setUserState.
  rewrite (userReducer_default _ _ a VUndefined); [by destruct st|..]; try done.
  destruct a; try done. by destruct (Hprim l).
Qed.

Lemma setUserState_primitive_ignored_witness :
  is_nullish (VStr "SET_USERNAME") = false
  ∧ setUserState mount (VStr "SET_USERNAME") = Ok mount.
Proof.
  split; [reflexivity|].
  apply (setUserState_primitive_ignored mount (VStr "SET_USERNAME"));
    [reflexivity | discriminate].
Defined.
